(** * Verification of the example Rust project [rust-project]

    Embedding of [src/examples/rust-project/src/lib.rs] and [main.rs]:
    the [Calculator] accumulator over IEEE-754 binary64 values and the
    [greet] helper. An [f64] is the Standard Library's [spec_float]
    instantiated for binary64 (53-bit precision, maximal exponent 1024);
    Rust's [+] and [-] on [f64] round to nearest, ties to even, as
    [SFadd] and [SFsub] do. *)

From Stdlib Require Import ZArith Lia List String Ascii Bool Permutation.
From Stdlib Require Import Floats.SpecFloat.
Import ListNotations.
Open Scope Z_scope.

(** ** IEEE-754 binary64 *)

Module F64.

Definition prec : Z := 53.
Definition emax : Z := 1024.

Definition f64 := spec_float.

Definition add (x y : f64) : f64 := SFadd prec emax x y.
Definition sub (x y : f64) : f64 := SFsub prec emax x y.
Definition neg (x : f64) : f64 := SFopp x.
(** Rust's [==] on [f64]. *)
Definition eqb (x y : f64) : bool := SFeqb x y.

(** The literal [n.0] for an integer [n], rounded as the compiler does. *)
Definition of_Z (n : Z) : f64 := binary_normalize prec emax n 0 false.

Definition zero : f64 := S754_zero false.
Definition nan : f64 := S754_nan.
Definition inf (s : bool) : f64 := S754_infinity s.

End F64.

Import F64.

(** ** [pub struct Calculator { value: f64 }] *)

Record Calculator := mkCalculator { value : f64 }.

(** [Calculator::new]: [Calculator { value: 0.0 }]. *)
Definition new : Calculator := {| value := S754_zero false |}.

(** The memory the methods act on: a [&mut Calculator] is a location
    in a store of calculators. *)
Definition loc := nat.
Definition store := loc -> Calculator.

Definition upd (h : store) (l : loc) (c : Calculator) : store :=
  fun l' => if Nat.eqb l' l then c else h l'.

(** [pub fn add(&mut self, num: f64) -> &mut Self { self.value += num; self }] *)
Definition add (self : loc) (num : f64) (h : store) : loc * store :=
  (self, upd h self {| value := F64.add (value (h self)) num |}).

(** [pub fn subtract(&mut self, num: f64) -> &mut Self { self.value -= num; self }] *)
Definition subtract (self : loc) (num : f64) (h : store) : loc * store :=
  (self, upd h self {| value := F64.sub (value (h self)) num |}).

(** [pub fn get_value(&self) -> f64 { self.value }]: a shared borrow,
    returned with the store it leaves behind. *)
Definition get_value (self : loc) (h : store) : f64 * store :=
  (value (h self), h).

(** [let mut calc = Calculator::new();] at location [l]. *)
Definition alloc_new (l : loc) (h : store) : store := upd h l new.

(** ** Method chains *)

Inductive Operation := Add (amount : f64) | Subtract (amount : f64).

(** [r.add(a)] or [r.subtract(a)] on the reference [r]. *)
Definition call (op : Operation) (r : loc) (h : store) : loc * store :=
  match op with
  | Add a => add r a h
  | Subtract a => subtract r a h
  end.

(** [calc.op_1(..).op_2(..)...op_n(..)]: each call is made on the
    reference the previous one returned. *)
Fixpoint chain (ops : list Operation) (r : loc) (h : store) : loc * store :=
  match ops with
  | [] => (r, h)
  | op :: ops' => let '(r', h') := call op r h in chain ops' r' h'
  end.

(** [let mut calc = Calculator::new(); calc.ops...; calc.get_value()] *)
Definition run_new (l : loc) (h : store) (ops : list Operation) : f64 :=
  let h1 := alloc_new l h in
  let '(_, h2) := chain ops l h1 in
  fst (get_value l h2).

(** The same with a calculator whose value is [v0]. *)
Definition run_from (v0 : f64) (l : loc) (h : store) (ops : list Operation) : f64 :=
  let h1 := upd h l {| value := v0 |} in
  let '(_, h2) := chain ops l h1 in
  fst (get_value l h2).

(** The sequential reading of a sequence of operations: IEEE addition of
    each add amount and IEEE subtraction of each subtract amount, left to
    right. *)
Definition step_value (v : f64) (op : Operation) : f64 :=
  match op with
  | Add a => F64.add v a
  | Subtract a => F64.sub v a
  end.

Definition fold_ops (v0 : f64) (ops : list Operation) : f64 :=
  fold_left step_value ops v0.

(** A subtract call read as the add of the negated amount. *)
Definition as_add (op : Operation) : Operation :=
  match op with
  | Add a => Add a
  | Subtract a => Add (F64.neg a)
  end.

(** An initial store; its contents do not matter. *)
Definition empty_store : store := fun _ => new.

(** [tests::test_calculator]: [calc.add(5.0).subtract(2.0)]. *)
Definition test_calculator_value : f64 :=
  run_new 0%nat empty_store [Add (of_Z 5); Subtract (of_Z 2)].

(** [main]: [calc.add(10.0).subtract(3.0)]. *)
Definition main_value : f64 :=
  run_new 0%nat empty_store [Add (of_Z 10); Subtract (of_Z 3)].

(** ** [greet] and the [format!] macro *)

(** A format string, split into literal text and [{}] placeholders;
    [{{] and [}}] are escaped braces. *)
Inductive piece := Lit (s : string) | Arg.

Definition push_lit (c : ascii) (ps : list piece) : list piece :=
  match ps with
  | Lit s :: ps' => Lit (String c s) :: ps'
  | _ => Lit (String c EmptyString) :: ps
  end.

Definition is_char (c d : ascii) : bool :=
  if ascii_dec c d then true else false.

Fixpoint parse_fmt (s : string) : list piece :=
  match s with
  | EmptyString => []
  | String c rest =>
      match rest with
      | String d rest' =>
          if is_char c "{"%char && is_char d "}"%char then Arg :: parse_fmt rest'
          else if is_char c "{"%char && is_char d "{"%char then push_lit c (parse_fmt rest')
          else if is_char c "}"%char && is_char d "}"%char then push_lit c (parse_fmt rest')
          else push_lit c (parse_fmt rest)
      | EmptyString => push_lit c (parse_fmt rest)
      end
  end.

(** Substitute the arguments, by their [Display] text, into the pieces. *)
Fixpoint render (ps : list piece) (args : list string) : string :=
  match ps with
  | [] => EmptyString
  | Lit s :: ps' => (s ++ render ps' args)%string
  | Arg :: ps' =>
      match args with
      | a :: args' => (a ++ render ps' args')%string
      | [] => render ps' []
      end
  end.

Definition format (fmt : string) (args : list string) : string :=
  render (parse_fmt fmt) args.

(** [pub fn greet(name: &str) -> String { format!("Hello, {}!", name) }] *)
Definition greet (name : string) : string := format "Hello, {}!" [name].

(** The three sequences of the order-dependence example, on the
    amounts 2^53 and 1. *)
Definition big : f64 := of_Z (2 ^ 53).
Definition one : f64 := of_Z 1.
Definition ops_round_first : list Operation := [Add big; Add one; Subtract big].
Definition ops_cancel_first : list Operation := [Add big; Subtract big; Add one].

(** ** Store and chain lemmas *)

Lemma upd_same (h : store) (l : loc) (c : Calculator) : upd h l c l = c.
Proof. unfold upd. now rewrite Nat.eqb_refl. Qed.

Lemma upd_other (h : store) (l l' : loc) (c : Calculator) :
  l' <> l -> upd h l c l' = h l'.
Proof. intros Hne. unfold upd. apply Nat.eqb_neq in Hne. now rewrite Hne. Qed.

Lemma call_spec (op : Operation) (l : loc) (h : store) :
  fst (call op l h) = l /\
  value (snd (call op l h) l) = step_value (value (h l)) op /\
  (forall l', l' <> l -> snd (call op l h) l' = h l').
Proof.
  destruct op as [a | a]; simpl; rewrite upd_same;
    repeat split; intros; now apply upd_other.
Qed.

Lemma chain_spec (ops : list Operation) : forall (l : loc) (h : store),
  fst (chain ops l h) = l /\
  value (snd (chain ops l h) l) = fold_ops (value (h l)) ops /\
  (forall l', l' <> l -> snd (chain ops l h) l' = h l').
Proof.
  induction ops as [| op ops IH]; intros l h; simpl.
  - repeat split; reflexivity.
  - destruct (call op l h) as [r h1] eqn:Ecall.
    destruct (call_spec op l h) as [Hr [Hv Hf]].
    rewrite Ecall in Hr, Hv, Hf; simpl in Hr, Hv, Hf; subst r.
    destruct (IH l h1) as [Hr' [Hv' Hf']].
    repeat split.
    + exact Hr'.
    + rewrite Hv', Hv. reflexivity.
    + intros l' Hne. rewrite Hf' by exact Hne. now apply Hf.
Qed.

Lemma run_from_fold (v0 : f64) (l : loc) (h : store) (ops : list Operation) :
  run_from v0 l h ops = fold_ops v0 ops.
Proof.
  unfold run_from.
  destruct (chain ops l (upd h l {| value := v0 |})) as [r h2] eqn:E.
  destruct (chain_spec ops l (upd h l {| value := v0 |})) as [_ [Hv _]].
  rewrite E in Hv. simpl in *. rewrite Hv, upd_same. reflexivity.
Qed.

(** IEEE subtraction is addition of the negated operand, in every case
    of the binary64 datatype. *)
Lemma SFsub_SFadd_opp (x y : f64) : F64.sub x y = F64.add x (F64.neg y).
Proof.
  unfold F64.sub, F64.add, F64.neg.
  destruct x as [sx | sx | | sx mx ex], y as [sy | sy | | sy my ey];
    try destruct sx; try destruct sy; try reflexivity;
    simpl; f_equal; unfold cond_Zopp; simpl; lia.
Qed.

(** ** Claims *)

(** C1: for every sequence of add/subtract calls chained on a fresh
    [Calculator::new()], [get_value()] returns the left-to-right IEEE fold
    of the operations starting from [0.0]. *)
Theorem run_new_sequential (l : loc) (h : store) (ops : list Operation) :
  run_new l h ops = fold_ops (S754_zero false) ops.
Proof.
  unfold run_new, alloc_new.
  destruct (chain ops l (upd h l new)) as [r h2] eqn:E.
  destruct (chain_spec ops l (upd h l new)) as [_ [Hv _]].
  rewrite E in Hv. simpl in *. rewrite Hv, upd_same. reflexivity.
Qed.

(** C2: [add(a)] sets the value to [v + a] and [subtract(a)] to [v - a];
    both return the reference to the same calculator and touch nothing
    else, so further calls chain on it. *)
Theorem add_subtract_mutate (h : store) (l : loc) (a : f64) :
  (fst (add l a h) = l /\
   value (snd (add l a h) l) = F64.add (value (h l)) a /\
   (forall l', l' <> l -> snd (add l a h) l' = h l')) /\
  (fst (subtract l a h) = l /\
   value (snd (subtract l a h) l) = F64.sub (value (h l)) a /\
   (forall l', l' <> l -> snd (subtract l a h) l' = h l')).
Proof.
  split; simpl; rewrite upd_same; repeat split; intros; now apply upd_other.
Qed.

(** C3: [Calculator::new()] holds [0.0], and [get_value()] on a fresh
    calculator returns [0.0]. *)
Theorem new_is_zero (l : loc) (h : store) :
  value new = S754_zero false /\
  fst (get_value l (alloc_new l h)) = S754_zero false.
Proof. unfold alloc_new, get_value. simpl. now rewrite upd_same. Qed.

(** C4: [new().add(5.0).subtract(2.0).get_value() == 3.0] and
    [new().add(10.0).subtract(3.0).get_value() == 7.0], exactly. *)
Theorem concrete_chains :
  test_calculator_value = of_Z 3 /\ F64.eqb test_calculator_value (of_Z 3) = true /\
  main_value = of_Z 7 /\ F64.eqb main_value (of_Z 7) = true.
Proof. vm_compute. repeat split. Qed.

(** C5 (counterexample): the final value does depend on the order:
    from [0.0], [+2^53, +1, -2^53] gives [0.0] (since [2^53 + 1] rounds to
    [2^53]) while its permutation [+2^53, -2^53, +1] gives [1.0]. *)
Lemma order_dependence_counterexample :
  ~ (forall (v0 : f64) (l : loc) (h : store) (ops1 ops2 : list Operation),
        Permutation ops1 ops2 -> run_from v0 l h ops1 = run_from v0 l h ops2).
Proof.
  intros Hall.
  specialize (Hall (S754_zero false) 0%nat empty_store ops_round_first ops_cancel_first).
  assert (Hp : Permutation ops_round_first ops_cancel_first).
  { unfold ops_round_first, ops_cancel_first. constructor. apply perm_swap. }
  specialize (Hall Hp). vm_compute in Hall. discriminate Hall.
Qed.

(** C5 (amended): the final value from any [v0] is the left-to-right
    IEEE fold in the given sequence order, and permuting the operations
    can change it. *)
Theorem run_from_order_matters :
  (forall (v0 : f64) (l : loc) (h : store) (ops : list Operation),
      run_from v0 l h ops = fold_ops v0 ops) /\
  exists ops1 ops2 : list Operation,
    Permutation ops1 ops2 /\
    run_from (S754_zero false) 0%nat empty_store ops1 <>
    run_from (S754_zero false) 0%nat empty_store ops2.
Proof.
  split.
  - exact run_from_fold.
  - exists ops_round_first, ops_cancel_first. split.
    + unfold ops_round_first, ops_cancel_first. constructor. apply perm_swap.
    + vm_compute. discriminate.
Qed.

(** C6: every method is total: [add] and [subtract] always return the
    reference they were called on, [get_value] always returns a value;
    NaN amounts propagate to NaN, and an infinite amount on a finite
    value gives the matching infinity, as IEEE-754 prescribes. *)
Theorem methods_total_ieee (l : loc) (h : store) (a : f64) :
  (exists h', add l a h = (l, h')) /\
  (exists h', subtract l a h = (l, h')) /\
  (exists v, get_value l h = (v, h)) /\
  value (snd (add l F64.nan h) l) = F64.nan /\
  value (snd (subtract l F64.nan h) l) = F64.nan /\
  (forall s, (exists s0, value (h l) = S754_zero s0) \/
             (exists s0 m e, value (h l) = S754_finite s0 m e) ->
     value (snd (add l (F64.inf s) h) l) = F64.inf s /\
     value (snd (subtract l (F64.inf s) h) l) = F64.inf (negb s)).
Proof.
  split; [eexists; reflexivity |].
  split; [eexists; reflexivity |].
  split; [eexists; reflexivity |].
  split; [simpl; rewrite upd_same; simpl; destruct (value (h l)); reflexivity |].
  split; [simpl; rewrite upd_same; simpl; destruct (value (h l)); reflexivity |].
  intros s [[s0 E] | [s0 [m [e E]]]];
    split; simpl; rewrite upd_same; simpl; rewrite E; reflexivity.
Qed.

(** C7: [get_value()] returns the current value and leaves the store as
    it was; two consecutive calls return the same value. *)
Theorem get_value_pure (l : loc) (h : store) :
  get_value l h = (value (h l), h) /\
  fst (get_value l (snd (get_value l h))) = fst (get_value l h).
Proof. split; reflexivity. Qed.

(** C8: [greet(name)] is ["Hello, "] followed by [name] followed by
    ["!"], for every [name]. *)
Theorem greet_format (name : string) :
  greet name = ("Hello, " ++ name ++ "!")%string.
Proof. reflexivity. Qed.

(** C10: [subtract(a)] leaves the store exactly as [add(-a)] does. *)
Theorem subtract_is_add_neg (h : store) (l : loc) (a : f64) :
  subtract l a h = add l (F64.neg a) h.
Proof. unfold subtract, add. now rewrite SFsub_SFadd_opp. Qed.

(** ** Witnesses *)

Lemma add_subtract_mutate_witness :
  (1%nat <> 0%nat) /\ snd (add 0%nat one empty_store) 1%nat = empty_store 1%nat.
Proof.
  split; [discriminate |].
  destruct (add_subtract_mutate empty_store 0%nat one) as [[_ [_ Hf]] _].
  apply Hf. discriminate.
Defined.

Lemma methods_total_ieee_witness :
  value (alloc_new 0%nat empty_store 0%nat) = S754_zero false /\
  value (snd (add 0%nat (F64.inf true) (alloc_new 0%nat empty_store)) 0%nat) = F64.inf true.
Proof.
  split; [reflexivity |].
  destruct (methods_total_ieee 0%nat (alloc_new 0%nat empty_store) one)
    as [_ [_ [_ [_ [_ Hinf]]]]].
  apply (Hinf true). left. exists false. reflexivity.
Defined.

(** ** Further properties of the calculator and of [greet] *)

Lemma run_new_fold (l : loc) (h : store) (ops : list Operation) :
  run_new l h ops = fold_ops (S754_zero false) ops.
Proof.
  unfold run_new, alloc_new.
  destruct (chain ops l (upd h l new)) as [r h2] eqn:E.
  destruct (chain_spec ops l (upd h l new)) as [_ [Hv _]].
  rewrite E in Hv. simpl in *. rewrite Hv, upd_same. reflexivity.
Qed.

Lemma SFadd_comm (x y : f64) : F64.add x y = F64.add y x.
Proof.
  unfold F64.add.
  destruct x as [sx | sx | | sx mx ex], y as [sy | sy | | sy my ey];
    try destruct sx; try destruct sy; try reflexivity;
    unfold SFadd; rewrite Z.add_comm, Z.min_comm; reflexivity.
Qed.


(** A chain on one calculator leaves every other calculator unchanged. *)
Theorem chain_frame (ops : list Operation) (l l' : loc) (h : store) :
  l' <> l -> snd (chain ops l h) l' = h l'.
Proof. intros Hne. now apply (chain_spec ops l h). Qed.

Lemma fold_nan (ops : list Operation) : fold_ops S754_nan ops = S754_nan.
Proof. induction ops as [| [a | a] ops IH]; [reflexivity | |]; exact IH. Qed.

(** Once a calculator holds NaN, every further chain leaves it NaN. *)
Theorem chain_nan_absorbing (ops : list Operation) (l : loc) (h : store) :
  value (h l) = S754_nan -> value (snd (chain ops l h) l) = S754_nan.
Proof.
  intros E. destruct (chain_spec ops l h) as [_ [Hv _]].
  rewrite Hv, E. apply fold_nan.
Qed.

Lemma fold_inf (s : bool) (ops : list Operation) :
  fold_ops (S754_infinity s) ops = S754_infinity s \/
  fold_ops (S754_infinity s) ops = S754_nan.
Proof.
  unfold fold_ops. induction ops as [| op ops IH]; simpl; [now left |].
  destruct op as [a | a]; destruct a as [sa | sa | | sa ma ea]; simpl;
    try exact IH; try (right; apply fold_nan);
    destruct s, sa; simpl; try exact IH; right; apply fold_nan.
Qed.

(** Once a calculator holds an infinity, every further chain leaves that
    same infinity or NaN. *)
Theorem chain_inf_sticky (ops : list Operation) (l : loc) (h : store) (s : bool) :
  value (h l) = S754_infinity s ->
  value (snd (chain ops l h) l) = S754_infinity s \/
  value (snd (chain ops l h) l) = S754_nan.
Proof.
  intros E. destruct (chain_spec ops l h) as [_ [Hv _]].
  rewrite Hv, E. apply fold_inf.
Qed.

(** [subtract(0.0)] leaves every value unchanged. *)
Theorem subtract_zero_id (l : loc) (h : store) :
  value (snd (subtract l F64.zero h) l) = value (h l).
Proof.
  simpl. rewrite upd_same. simpl.
  destruct (value (h l)) as [[] | | | ]; reflexivity.
Qed.

(** [add(0.0)] leaves every value unchanged except [-0.0], which becomes
    [+0.0]. *)
Theorem add_zero_id (l : loc) (h : store) :
  value (snd (add l F64.zero h) l) =
  match value (h l) with
  | S754_zero true => S754_zero false
  | v => v
  end.
Proof.
  simpl. rewrite upd_same. simpl.
  destruct (value (h l)) as [[] | | | ]; reflexivity.
Qed.

(** [add] is commutative: a calculator holding [v] after [add(a)] holds
    what a calculator holding [a] does after [add(v)]. *)
Theorem add_commutes (l : loc) (h : store) (v a : f64) :
  value (snd (add l a (upd h l {| value := v |})) l) =
  value (snd (add l v (upd h l {| value := a |})) l).
Proof. simpl. rewrite !upd_same. simpl. apply SFadd_comm. Qed.

(** [new().add(a).subtract(a)] is back to [0.0] for every finite or zero
    [a], and NaN for an infinite or NaN [a]. *)
Theorem add_subtract_same_from_new (l : loc) (h : store) (a : f64) :
  run_new l h [Add a; Subtract a] =
  match a with
  | S754_infinity _ | S754_nan => S754_nan
  | _ => S754_zero false
  end.
Proof.
  rewrite run_new_fold. unfold fold_ops, F64.add, F64.sub. cbn [fold_left step_value].
  destruct a as [[] | [] | | sa ma ea]; try reflexivity.
  unfold F64.add, F64.sub. cbn [SFadd]. unfold SFsub.
  match goal with
  | |- context [IntDef.Z.sub ?k ?k] =>
      assert (Hk : IntDef.Z.sub k k = 0) by exact (Z.sub_diag k); rewrite Hk
  end.
  reflexivity.
Qed.

(** Any chain of adds and subtracts leaves the store exactly as the chain
    of adds in which each [subtract(a)] is replaced by [add(-a)]. *)
Theorem chain_as_adds (ops : list Operation) (l : loc) (h : store) :
  chain ops l h = chain (map as_add ops) l h.
Proof.
  revert l h. induction ops as [| [a | a] ops IH]; intros l h; simpl.
  - reflexivity.
  - apply IH.
  - unfold subtract, add. rewrite SFsub_SFadd_opp. apply IH.
Qed.

(** The result of a chain on a fresh [Calculator::new()] does not depend
    on what the store held before. *)
Theorem run_new_store_independent (l : loc) (h1 h2 : store) (ops : list Operation) :
  run_new l h1 ops = run_new l h2 ops.
Proof. now rewrite !run_new_fold. Qed.

Lemma greet_eq (name : string) : greet name = ("Hello, " ++ name ++ "!")%string.
Proof. reflexivity. Qed.

Lemma append_length' (a b : string) :
  String.length (a ++ b) = (String.length a + String.length b)%nat.
Proof. induction a as [| c a IH]; simpl; congruence. Qed.

Lemma append_suffix_inj (a b s : string) : (a ++ s = b ++ s)%string -> a = b.
Proof.
  revert b. induction a as [| c a IH]; intros [| d b] E; simpl in E.
  - reflexivity.
  - apply (f_equal String.length) in E. simpl in E.
    rewrite append_length' in E. lia.
  - apply (f_equal String.length) in E. simpl in E.
    rewrite append_length' in E. lia.
  - injection E as -> E. f_equal. now apply IH.
Qed.

(** [greet] is injective: different names give different greetings. *)
Theorem greet_injective (a b : string) : greet a = greet b -> a = b.
Proof.
  rewrite !greet_eq. simpl. intros E.
  repeat (injection E as E).
  now apply append_suffix_inj in E.
Qed.

(** The greeting is eight characters longer than the name. *)
Theorem greet_length (name : string) :
  String.length (greet name) = (String.length name + 8)%nat.
Proof.
  rewrite greet_eq, append_length', append_length'. simpl. lia.
Qed.

Lemma chain_frame_witness :
  (1%nat <> 0%nat) /\ snd (chain ops_round_first 0%nat empty_store) 1%nat = new.
Proof.
  split; [discriminate |].
  apply (chain_frame ops_round_first 0%nat 1%nat empty_store). discriminate.
Defined.

Lemma chain_nan_absorbing_witness :
  value (upd empty_store 0%nat {| value := F64.nan |} 0%nat) = S754_nan /\
  value (snd (chain ops_cancel_first 0%nat (upd empty_store 0%nat {| value := F64.nan |})) 0%nat)
    = S754_nan.
Proof.
  split; [reflexivity |].
  apply chain_nan_absorbing. reflexivity.
Defined.

Lemma chain_inf_sticky_witness :
  value (upd empty_store 0%nat {| value := F64.inf false |} 0%nat) = S754_infinity false /\
  (value (snd (chain ops_round_first 0%nat (upd empty_store 0%nat {| value := F64.inf false |})) 0%nat)
     = S754_infinity false \/
   value (snd (chain ops_round_first 0%nat (upd empty_store 0%nat {| value := F64.inf false |})) 0%nat)
     = S754_nan).
Proof.
  split; [reflexivity |].
  apply chain_inf_sticky. reflexivity.
Defined.

Lemma greet_injective_witness :
  greet "World" = greet "World" /\ "World"%string = "World"%string.
Proof.
  split; [reflexivity |].
  apply greet_injective. reflexivity.
Defined.
